(** * A shallow embedding of the logrus hook for Application Insights (hook.go)

    The hook forwards logrus entries to an Application Insights telemetry
    client.  We model:
    - Go values stored in [logrus.Fields] as [Value]: a raw payload together
      with the method sets the type switch of [formatData] and the [%v] verb
      of [fmt.Sprintf] look at ([MarshalJSON], [Error], [String]);
    - [entry.Data], [hook.ignoreFields] and [hook.filters] as stdpp maps/sets;
    - filter functions as Go functions that may panic ([call_result]);
    - [buildTrace], [fire], [Fire] (with an explicit scheduling choice for the
      goroutine spawned in async mode), [New], [NewWithAppInsightsConfig]. *)

From Stdlib Require Import ZArith Ascii.
From stdpp Require Import base gmap strings list fin_maps.

Open Scope string_scope.

(* ------------------------------------------------------------------ *)
(** ** Go values *)

(** The dynamic payload of an [interface{}] value, as the default [%v]
    formatting renders it when no method applies. *)
Inductive Raw :=
| RString (s : string)        (* a Go string *)
| RInt (z : Z)                (* a Go int *)
| RNil                        (* the nil interface value *)
| ROther (repr : string).     (* any other type, with its default [%v] text *)

(** A Go value with the methods of its dynamic type:
    [v_marshalJSON] is [Some _] iff the type implements [json.Marshaler]
    (the payload is its structured form), [v_error] iff it implements
    [error] (payload: [Error()]), [v_string] iff it implements
    [fmt.Stringer] (payload: [String()]). *)
Record Value := mkValue {
  v_raw : Raw;
  v_marshalJSON : option string;
  v_error : option string;
  v_string : option string;
}.

(** A plain Go string, e.g. the result of [value.Error()]. *)
Definition goString (s : string) : Value := mkValue (RString s) None None None.
Definition goInt (z : Z) : Value := mkValue (RInt z) None None None.
Definition goNil : Value := mkValue RNil None None None.

(** Decimal digits of a non-negative integer; the fuel of 64 digits covers
    every 64-bit Go int. *)
Fixpoint digits_go (fuel : nat) (n : Z) (acc : string) : string :=
  match fuel with
  | O => acc
  | S f =>
      let d := ascii_of_nat (48 + Z.to_nat (Z.modulo n 10)) in
      let acc' := String d acc in
      if Z.ltb n 10 then acc' else digits_go f (Z.div n 10) acc'
  end.

Definition Z_to_decimal (z : Z) : string :=
  if Z.ltb z 0 then "-" ++ digits_go 64 (- z) "" else digits_go 64 z "".

Definition raw_default (r : Raw) : string :=
  match r with
  | RString s => s
  | RInt z => Z_to_decimal z
  | RNil => "<nil>"
  | ROther repr => repr
  end.

(** [fmt.Sprintf("%v", v)]: [handleMethods] checks [error] before
    [fmt.Stringer]; [MarshalJSON] is not consulted by [fmt]. *)
Definition sprintfV (v : Value) : string :=
  match v_error v with
  | Some m => m
  | None =>
      match v_string v with
      | Some s => s
      | None => raw_default (v_raw v)
      end
  end.

(** [formatData] (hook.go): the type switch, cases tried in order. *)
Definition formatData (value : Value) : Value :=
  match v_marshalJSON value with
  | Some _ => value
  | None =>
      match v_error value with
      | Some m => goString m
      | None =>
          match v_string value with
          | Some s => goString s
          | None => value
          end
      end
  end.

(* ------------------------------------------------------------------ *)
(** ** logrus levels and Application Insights severities *)

(** [logrus.Level] is a [uint32]: Panic 0, Fatal 1, Error 2, Warn 3,
    Info 4, Debug 5, Trace 6; other values can be constructed. *)
Definition Level := N.
Definition PanicLevel : Level := 0%N.
Definition FatalLevel : Level := 1%N.
Definition ErrorLevel : Level := 2%N.
Definition WarnLevel : Level := 3%N.
Definition InfoLevel : Level := 4%N.
Definition DebugLevel : Level := 5%N.
Definition TraceLevel : Level := 6%N.

(** [Level.String()] of logrus. *)
Definition Level_String (l : Level) : string :=
  match l with
  | 0%N => "panic"
  | 1%N => "fatal"
  | 2%N => "error"
  | 3%N => "warning"
  | 4%N => "info"
  | 5%N => "debug"
  | 6%N => "trace"
  | _ => "unknown"
  end.

(** [contracts.SeverityLevel] is an int32: Verbose 0, Information 1,
    Warning 2, Error 3, Critical 4. *)
Definition SeverityLevel := Z.
Definition Verbose : SeverityLevel := 0%Z.
Definition Information : SeverityLevel := 1%Z.
Definition Warning : SeverityLevel := 2%Z.
Definition Error : SeverityLevel := 3%Z.
Definition Critical : SeverityLevel := 4%Z.

Definition levelMap : gmap N Z :=
  <[PanicLevel := Critical]> (<[FatalLevel := Critical]> (<[ErrorLevel := Error]>
  (<[WarnLevel := Warning]> (<[InfoLevel := Information]> ∅)))).

(** [levelMap[entry.Level]]: a Go map read yields the zero value on a miss. *)
Definition levelMap_index (l : Level) : SeverityLevel :=
  default 0%Z (levelMap !! l).

(* ------------------------------------------------------------------ *)
(** ** Entries, traces and the hook *)

(** [time.Time], represented by what its [String()] method prints. *)
Record Time := mkTime { Time_String : string }.

(** [logrus.Entry] (the fields [buildTrace] reads). *)
Record Entry := mkEntry {
  e_Level : Level;
  e_Message : string;
  e_Time : Time;
  e_Data : gmap string Value;
}.

Definition set_Data (e : Entry) (d : gmap string Value) : Entry :=
  mkEntry (e_Level e) (e_Message e) (e_Time e) d.

(** Outcome of calling a Go function value: it returns, or it panics with
    the printed panic value (a nil function value panics when called). *)
Inductive call_result :=
| Ret (v : Value)
| Panic (p : string).

(** [func(interface{}) interface{}]. *)
Abbreviation Filter := (Value -> call_result).

Definition nil_deref_panic : string :=
  "runtime error: invalid memory address or nil pointer dereference".

(** A filter registered as [AddFilter(name, nil)]. *)
Definition nilFilter : Filter := fun _ => Panic nil_deref_panic.

(** [appinsights.TelemetryConfiguration] (the fields the hook touches);
    [MaxBatchInterval] is a [time.Duration] in nanoseconds. *)
Record TelemetryConfiguration := mkTelemetryConfiguration {
  InstrumentationKey : string;
  EndpointUrl : string;
  MaxBatchSize : Z;
  MaxBatchInterval : Z;
}.

Definition Second : Z := 1000000000%Z.

(** [appinsights.NewTelemetryConfiguration] of the SDK: the collaborator's
    defaults. *)
Definition NewTelemetryConfiguration (iKey : string) : TelemetryConfiguration :=
  mkTelemetryConfiguration iKey "https://dc.services.visualstudio.com/v2/track"
    1024 (10 * Second).

Definition set_MaxBatchSize (c : TelemetryConfiguration) (n : Z) :=
  mkTelemetryConfiguration (InstrumentationKey c) (EndpointUrl c) n (MaxBatchInterval c).
Definition set_MaxBatchInterval (c : TelemetryConfiguration) (d : Z) :=
  mkTelemetryConfiguration (InstrumentationKey c) (EndpointUrl c) (MaxBatchSize c) d.
Definition set_EndpointUrl (c : TelemetryConfiguration) (u : string) :=
  mkTelemetryConfiguration (InstrumentationKey c) u (MaxBatchSize c) (MaxBatchInterval c).

(** A telemetry client, known here only through the configuration it was
    built from ([NewTelemetryClientFromConfig]). *)
Record TelemetryClient := mkTelemetryClient { client_config : TelemetryConfiguration }.

Definition NewTelemetryClientFromConfig (c : TelemetryConfiguration) : TelemetryClient :=
  mkTelemetryClient c.

(** [AppInsightsHook]. *)
Record AppInsightsHook := mkAppInsightsHook {
  client : TelemetryClient;
  async : bool;
  levels : list Level;
  ignoreFields : gset string;
  filters : gmap string Filter;
}.

Definition defaultLevels : list Level :=
  [PanicLevel; FatalLevel; ErrorLevel; WarnLevel; InfoLevel].

(** [appinsights.TraceTelemetry] (message, severity and properties). *)
Record TraceTelemetry := mkTraceTelemetry {
  tr_Message : string;
  tr_SeverityLevel : SeverityLevel;
  tr_Properties : gmap string string;
}.

(** [appinsights.NewTraceTelemetry] always allocates a trace with an empty
    property map; the [trace == nil] test of [buildTrace] never fires. *)
Definition NewTraceTelemetry (message : string) (sev : SeverityLevel)
  : option TraceTelemetry :=
  Some (mkTraceTelemetry message sev ∅).

(* ------------------------------------------------------------------ *)
(** ** Constructors *)

(** A Go [(value, error)] pair: exactly one side is meaningful here. *)
Inductive result (A : Type) :=
| Ok (a : A)
| Err (msg : string).
Arguments Ok {A} a.
Arguments Err {A} msg.

Definition is_ok {A} (r : result A) : bool :=
  match r with Ok _ => true | Err _ => false end.

Definition mkHook (c : TelemetryClient) : AppInsightsHook :=
  mkAppInsightsHook c false defaultLevels ∅ ∅.

(** [New(iKey)]. *)
Definition New (iKey : string) : result AppInsightsHook :=
  if String.eqb iKey "" then
    Err "InstrumentationKey is required and missing from configuration"
  else
    let telemetryConfig := NewTelemetryConfiguration iKey in
    let telemetryConfig := set_MaxBatchSize telemetryConfig 8192 in
    let telemetryConfig := set_MaxBatchInterval telemetryConfig (2 * Second) in
    Ok (mkHook (NewTelemetryClientFromConfig telemetryConfig)).

(** [NewWithAppInsightsConfig(conf)] for a non-nil [conf]. *)
Definition NewWithAppInsightsConfig (conf : TelemetryConfiguration)
  : result AppInsightsHook :=
  if String.eqb (InstrumentationKey conf) "" then
    Err "InstrumentationKey is required and missing from configuration"
  else
    let telemetryConf := NewTelemetryConfiguration (InstrumentationKey conf) in
    let telemetryConf :=
      if Z.eqb (MaxBatchSize conf) 0 then telemetryConf
      else set_MaxBatchSize telemetryConf (MaxBatchSize conf) in
    let telemetryConf :=
      if Z.eqb (MaxBatchInterval conf) 0 then telemetryConf
      else set_MaxBatchInterval telemetryConf (MaxBatchInterval conf) in
    let telemetryConf :=
      if String.eqb (EndpointUrl conf) "" then telemetryConf
      else set_EndpointUrl telemetryConf (EndpointUrl conf) in
    Ok (mkHook (NewTelemetryClientFromConfig telemetryConf)).

(** [Levels()] and [SetLevels(levels)]. *)
Definition Levels (hook : AppInsightsHook) : list Level := levels hook.
Definition SetLevels (hook : AppInsightsHook) (ls : list Level) : AppInsightsHook :=
  mkAppInsightsHook (client hook) (async hook) ls (ignoreFields hook) (filters hook).

(** Setters. *)
Definition SetAsync (hook : AppInsightsHook) (b : bool) : AppInsightsHook :=
  mkAppInsightsHook (client hook) b (levels hook) (ignoreFields hook) (filters hook).
Definition AddIgnore (hook : AppInsightsHook) (name : string) : AppInsightsHook :=
  mkAppInsightsHook (client hook) (async hook) (levels hook)
    ({[name]} ∪ ignoreFields hook) (filters hook).
Definition AddFilter (hook : AppInsightsHook) (name : string) (fn : Filter)
  : AppInsightsHook :=
  mkAppInsightsHook (client hook) (async hook) (levels hook) (ignoreFields hook)
    (<[name := fn]> (filters hook)).

(* ------------------------------------------------------------------ *)
(** ** buildTrace, fire and Fire *)

(** The body of [for k, v := range entry.Data]: the accumulator is the
    property map so far, or the panic that stopped the loop. *)
Definition field_step (hook : AppInsightsHook) (k : string) (v : Value)
    (acc : string + gmap string string) : string + gmap string string :=
  match acc with
  | inl p => inl p
  | inr props =>
      if decide (k ∈ ignoreFields hook) then inr props
      else
        match filters hook !! k with
        | Some fn =>
            match fn v with
            | Ret v' => inr (<[k := sprintfV v']> props)
            | Panic p => inl p
            end
        | None => inr (<[k := sprintfV (formatData v)]> props)
        end
  end.

(** Go visits the map in an unspecified order; we visit it in [map_fold]'s
    order.  Each key is written at most once, so the property map does not
    depend on the order. *)
Definition fields_loop (hook : AppInsightsHook) (data : gmap string Value)
    (props : gmap string string) : string + gmap string string :=
  map_fold (field_step hook) (inr props) data.

(** What [buildTrace] leaves behind: [entry] is the caller's entry after the
    call (its [Data] map is shared and mutated in place). *)
Inductive BuildResult :=
| BTOk (entry : Entry) (trace : TraceTelemetry)
| BTErr (entry : Entry) (err : string)
| BTPanic (entry : Entry) (p : string).

(** Step 1 of [buildTrace]: add the message as a field if it isn't already. *)
Definition add_message (entry : Entry) : Entry :=
  match e_Data entry !! "message" with
  | Some _ => entry
  | None => set_Data entry (<["message" := goString (e_Message entry)]> (e_Data entry))
  end.

Definition buildTrace (hook : AppInsightsHook) (entry0 : Entry) : BuildResult :=
  let entry := add_message entry0 in
  let level := levelMap_index (e_Level entry) in
  match NewTraceTelemetry (e_Message entry) level with
  | None => BTErr entry "Could not create telemetry trace with entry"
  | Some trace =>
      match fields_loop hook (e_Data entry) (tr_Properties trace) with
      | inl p => BTPanic entry p
      | inr props =>
          let props := <["source_level" := Level_String (e_Level entry)]> props in
          let props := <["source_timestamp" := Time_String (e_Time entry)]> props in
          BTOk entry (mkTraceTelemetry (tr_Message trace) (tr_SeverityLevel trace) props)
      end
  end.

(** Observable outcome of a Go call: it returns an error (or nil), or it
    panics. *)
Inductive Outcome :=
| Returned (err : option string)
| Panicked (p : string).

(** [hook.fire(entry)]; [client.Track(trace)] only queues the trace. *)
Definition fire (hook : AppInsightsHook) (entry : Entry) : Outcome :=
  match buildTrace hook entry with
  | BTOk _ _ => Returned None
  | BTErr _ e => Returned (Some e)
  | BTPanic _ p => Panicked p
  end.

(** The two orders in which the goroutine spawned by an async [Fire] and
    the caller's [if err != nil] test on the shared named result [err] can
    run: the test first, or the whole goroutine (including its deferred
    [recover], which assigns [err]) first. *)
Inductive Sched :=
| CheckFirst
| GoroutineFirst.

(** [hook.Fire(entry)] under the scheduling choice [s]. *)
Definition Fire (hook : AppInsightsHook) (entry : Entry) (s : Sched) : Outcome :=
  if negb (async hook) then fire hook entry
  else
    (* the value of [err] when the caller tests it *)
    let err :=
      match s with
      | CheckFirst => None
      | GoroutineFirst =>
          match fire hook entry with
          | Panicked r => Some ("An error occurred: " ++ r)
          | Returned _ => None
          end
      end in
    match err with
    | Some e => Returned (Some e)
    | None => Returned None
    end.

(* ------------------------------------------------------------------ *)
(** ** Test fixtures *)

Definition testHook : AppInsightsHook :=
  mkHook (NewTelemetryClientFromConfig (NewTelemetryConfiguration "NotEmpty")).

Definition with_ignore (names : list string) (hook : AppInsightsHook) :=
  foldr (fun n h => AddIgnore h n) hook names.

Definition fruit_fields : gmap string Value :=
  <["name" := goString "apple"]> (<["price" := goInt 105]>
  (<["color" := goString "red"]> ∅)).

Definition fruit_entry (l : Level) (t : Time) : Entry :=
  mkEntry l "entry_message" t fruit_fields.

(** The property map a successful build produced ([∅] otherwise). *)
Definition built_props (r : BuildResult) : gmap string string :=
  match r with
  | BTOk _ t => tr_Properties t
  | _ => ∅
  end.

Definition result_entry (r : BuildResult) : Entry :=
  match r with
  | BTOk e _ | BTErr e _ | BTPanic e _ => e
  end.

Example fruit_props_sample :
  built_props (buildTrace testHook (fruit_entry InfoLevel (mkTime "T")))
  = <["message" := "entry_message"]> (<["name" := "apple"]> (<["price" := "105"]>
    (<["color" := "red"]> (<["source_level" := "info"]>
    (<["source_timestamp" := "T"]> ∅))))).
Proof. vm_compute. reflexivity. Qed.

(* ------------------------------------------------------------------ *)
(** ** The field loop *)

(** What one field contributes: nothing (ignored), a string, or a panic. *)
Definition field_output (hook : AppInsightsHook) (k : string) (v : Value)
  : string + option string :=
  if decide (k ∈ ignoreFields hook) then inr None
  else
    match filters hook !! k with
    | Some fn =>
        match fn v with
        | Ret v' => inr (Some (sprintfV v'))
        | Panic p => inl p
        end
    | None => inr (Some (sprintfV (formatData v)))
    end.

Definition loop_lookup (hook : AppInsightsHook) (data : gmap string Value)
    (props : gmap string string) (k : string) : option string :=
  match data !! k with
  | None => props !! k
  | Some v =>
      match field_output hook k v with
      | inr (Some s) => Some s
      | _ => props !! k
      end
  end.

Lemma fields_loop_spec (hook : AppInsightsHook) (data : gmap string Value)
    (props props' : gmap string string) :
  fields_loop hook data props = inr props' ->
  (forall k, props' !! k = loop_lookup hook data props k) /\
  (forall k v p, data !! k = Some v -> field_output hook k v <> inl p).
Proof.
  unfold fields_loop.
  revert props'.
  apply (map_fold_weak_ind
           (fun r m => forall props', r = inr props' ->
              (forall k, props' !! k = loop_lookup hook m props k) /\
              (forall k v p, m !! k = Some v -> field_output hook k v <> inl p))).
  - intros props' [= <-]. split.
    + intros k. unfold loop_lookup. by rewrite lookup_empty.
    + intros k v p. by rewrite lookup_empty.
  - intros i x m r Hi IH props' Hstep.
    destruct r as [p0 | props0]; [discriminate |].
    destruct (IH props0 eq_refl) as [IHl IHp].
    unfold field_step in Hstep. unfold loop_lookup.
    assert (Hout : field_output hook i x = inr None /\ props' = props0 \/
                   exists s, field_output hook i x = inr (Some s) /\
                             props' = <[i := s]> props0).
    { unfold field_output.
      destruct (decide (i ∈ ignoreFields hook)); [left; split; congruence |].
      destruct (filters hook !! i) as [fn |].
      - destruct (fn x) as [v' | p']; [| discriminate].
        right. eexists; split; [reflexivity | congruence].
      - right. eexists; split; [reflexivity | congruence]. }
    split.
    + intros k. destruct (decide (i = k)) as [<- | Hne].
      * rewrite lookup_insert_eq.
        destruct Hout as [[Ho ->] | [s [Ho ->]]]; rewrite Ho.
        -- rewrite IHl. unfold loop_lookup. by rewrite Hi.
        -- by rewrite lookup_insert_eq.
      * rewrite lookup_insert_ne by done.
        destruct Hout as [[Ho ->] | [s [Ho ->]]].
        -- by rewrite IHl.
        -- rewrite lookup_insert_ne by done. by rewrite IHl.
    + intros k v p Hk. destruct (decide (i = k)) as [<- | Hne].
      * rewrite lookup_insert_eq in Hk. injection Hk as <-.
        destruct Hout as [[Ho _] | [s [Ho _]]]; rewrite Ho; discriminate.
      * rewrite lookup_insert_ne in Hk by done. eauto.
Qed.

(* ------------------------------------------------------------------ *)
(** ** buildTrace *)

Lemma buildTrace_shape (hook : AppInsightsHook) (entry e : Entry) (t : TraceTelemetry) :
  buildTrace hook entry = BTOk e t ->
  e = add_message entry /\
  tr_Message t = e_Message entry /\
  tr_SeverityLevel t = levelMap_index (e_Level entry) /\
  exists props,
    fields_loop hook (e_Data (add_message entry)) ∅ = inr props /\
    tr_Properties t =
      <["source_timestamp" := Time_String (e_Time entry)]>
      (<["source_level" := Level_String (e_Level entry)]> props).
Proof.
  unfold buildTrace. cbn [NewTraceTelemetry tr_Properties tr_Message tr_SeverityLevel].
  assert (Hm : e_Message (add_message entry) = e_Message entry /\
               e_Level (add_message entry) = e_Level entry /\
               e_Time (add_message entry) = e_Time entry).
  { unfold add_message. by destruct (e_Data entry !! "message"). }
  destruct Hm as (Hm1 & Hm2 & Hm3). rewrite Hm1, Hm2, Hm3.
  destruct (fields_loop hook (e_Data (add_message entry)) ∅) as [p | props] eqn:Hl;
    [discriminate |].
  intros [= <- <-]. cbn. repeat split; eauto.
Qed.

Lemma buildTrace_no_err (hook : AppInsightsHook) (entry e : Entry) (s : string) :
  buildTrace hook entry <> BTErr e s.
Proof.
  unfold buildTrace. cbn [NewTraceTelemetry tr_Properties].
  by destruct (fields_loop _ _ _).
Qed.

Lemma add_message_data (entry : Entry) :
  e_Data (add_message entry) =
  match e_Data entry !! "message" with
  | Some _ => e_Data entry
  | None => <["message" := goString (e_Message entry)]> (e_Data entry)
  end.
Proof. unfold add_message. by destruct (e_Data entry !! "message"). Qed.

Lemma buildTrace_entry (hook : AppInsightsHook) (entry : Entry) :
  result_entry (buildTrace hook entry) = add_message entry.
Proof.
  unfold buildTrace. cbn [NewTraceTelemetry tr_Properties].
  by destruct (fields_loop _ _ _).
Qed.

(** The output value of a field other than the two trailing keys. *)
Lemma buildTrace_lookup (hook : AppInsightsHook) (entry e : Entry) (t : TraceTelemetry)
    (k : string) :
  buildTrace hook entry = BTOk e t ->
  k <> "source_level" -> k <> "source_timestamp" ->
  tr_Properties t !! k = loop_lookup hook (e_Data e) ∅ k.
Proof.
  intros Hb H1 H2.
  destruct (buildTrace_shape hook entry e t Hb) as (-> & _ & _ & props & Hl & ->).
  rewrite !lookup_insert_ne by congruence.
  by destruct (fields_loop_spec _ _ _ _ Hl) as [-> _].
Qed.

(* ------------------------------------------------------------------ *)
(** ** C1: the "message" field *)

(** C1, as stated: the output always contains "message", even with ignore
    rules.  It fails when "message" itself is ignored. *)
Lemma C1_counterexample :
  built_props (buildTrace (with_ignore ["message"] testHook)
                 (mkEntry InfoLevel "hello" (mkTime "T") ∅)) !! "message" = None /\
  is_ok (match buildTrace (with_ignore ["message"] testHook)
                 (mkEntry InfoLevel "hello" (mkTime "T") ∅) with
         | BTOk _ t => Ok t | _ => Err "" end) = true.
Proof. vm_compute. split; reflexivity. Qed.

(** C1 (amended): [buildTrace] puts the entry's message under "message" in
    the entry's field mapping when the key is missing (keeping an existing
    value); a successful build whose ignore set does not contain "message"
    has a "message" property, equal to the entry's message when the key was
    missing and no filter is registered for it; an ignored "message" gives
    no "message" property. *)
Theorem C1_message_field (hook : AppInsightsHook) (entry : Entry) :
  e_Data (result_entry (buildTrace hook entry)) !! "message" =
    Some (default (goString (e_Message entry)) (e_Data entry !! "message")) /\
  (forall e t, buildTrace hook entry = BTOk e t ->
     ("message" ∉ ignoreFields hook -> is_Some (tr_Properties t !! "message")) /\
     ("message" ∈ ignoreFields hook -> tr_Properties t !! "message" = None) /\
     ("message" ∉ ignoreFields hook -> filters hook !! "message" = None ->
      e_Data entry !! "message" = None ->
      tr_Properties t !! "message" = Some (e_Message entry))).
Proof.
  split.
  - rewrite buildTrace_entry, add_message_data.
    destruct (e_Data entry !! "message") eqn:E; [by rewrite E |].
    by rewrite lookup_insert_eq.
  - intros e t Hb.
    destruct (buildTrace_shape hook entry e t Hb) as (He & _ & _ & props & Hl & _).
    pose proof (buildTrace_lookup hook entry e t "message" Hb ltac:(done) ltac:(done))
      as Hk.
    destruct (fields_loop_spec _ _ _ _ Hl) as [_ Hnp].
    rewrite Hk. subst e. unfold loop_lookup.
    assert (Hin : is_Some (e_Data (add_message entry) !! "message")).
    { rewrite add_message_data.
      destruct (e_Data entry !! "message") eqn:E; [by rewrite E |].
      by rewrite lookup_insert_eq. }
    destruct Hin as [v Hv]. rewrite Hv.
    specialize (Hnp "message" v). unfold field_output in *.
    repeat split.
    + intros Hni. destruct (decide _); [done |].
      destruct (filters hook !! "message") as [fn |]; [| done].
      destruct (fn v) as [v' | p]; [done |].
      exfalso. by apply (Hnp p Hv).
    + intros Hi. destruct (decide _); [by rewrite lookup_empty | done].
    + intros Hni Hf Hd. destruct (decide _); [done |].
      rewrite Hf.
      rewrite add_message_data, Hd, lookup_insert_eq in Hv.
      injection Hv as <-. reflexivity.
Qed.

Lemma C1_message_field_witness :
  ("message" ∉ ignoreFields testHook) /\
  filters testHook !! "message" = None /\
  e_Data (fruit_entry InfoLevel (mkTime "T")) !! "message" = None /\
  buildTrace testHook (fruit_entry InfoLevel (mkTime "T")) =
    BTOk (add_message (fruit_entry InfoLevel (mkTime "T")))
      (mkTraceTelemetry "entry_message" Information
         (built_props (buildTrace testHook (fruit_entry InfoLevel (mkTime "T"))))) /\
  built_props (buildTrace testHook (fruit_entry InfoLevel (mkTime "T"))) !! "message"
    = Some "entry_message".
Proof.
  assert (Hb : buildTrace testHook (fruit_entry InfoLevel (mkTime "T")) =
    BTOk (add_message (fruit_entry InfoLevel (mkTime "T")))
      (mkTraceTelemetry "entry_message" Information
         (built_props (buildTrace testHook (fruit_entry InfoLevel (mkTime "T")))))).
  { vm_compute. reflexivity. }
  assert (Hni : "message" ∉ ignoreFields testHook)
    by (change (ignoreFields testHook) with (∅ : gset string);
        apply not_elem_of_empty).
  assert (Hf : filters testHook !! "message" = None) by reflexivity.
  assert (Hd : e_Data (fruit_entry InfoLevel (mkTime "T")) !! "message" = None)
    by reflexivity.
  refine (conj Hni (conj Hf (conj Hd (conj Hb _)))).
  destruct (C1_message_field testHook (fruit_entry InfoLevel (mkTime "T"))) as [_ H].
  destruct (H _ _ Hb) as (_ & _ & H3).
  exact (H3 Hni Hf Hd).
Defined.

(* ------------------------------------------------------------------ *)
(** ** C2: default normalization *)

(** C2: [formatData] tries [json.Marshaler], then [error], then
    [fmt.Stringer], then passes the value through; a marshalable value is
    returned unchanged whatever other methods it has (also when it has a
    [String] method), and an error that is not marshalable becomes the plain
    string of its [Error()] text, not its structured form. *)
Theorem C2_formatData_priority (v : Value) :
  (forall j, v_marshalJSON v = Some j -> formatData v = v) /\
  (forall j s, v_marshalJSON v = Some j -> v_string v = Some s -> formatData v = v) /\
  (forall m, v_marshalJSON v = None -> v_error v = Some m ->
     formatData v = goString m /\ v_marshalJSON (formatData v) = None) /\
  (forall s, v_marshalJSON v = None -> v_error v = None -> v_string v = Some s ->
     formatData v = goString s) /\
  (v_marshalJSON v = None -> v_error v = None -> v_string v = None ->
     formatData v = v).
Proof.
  unfold formatData.
  destruct (v_marshalJSON v), (v_error v), (v_string v);
    repeat split; intros; congruence.
Qed.

(** A [time.Time]-like value: marshalable and with a [String] method. *)
Definition sample_time_value : Value :=
  mkValue (ROther "{wall:0 ext:0}") (Some "2018-01-25T12:13:42Z") None
    (Some "2018-01-25 12:13:42 +0000 UTC").

(** An [errors.New] value. *)
Definition sample_error_value : Value :=
  mkValue (ROther "&{this is a test error}") None (Some "this is a test error") None.

Lemma C2_formatData_priority_witness :
  v_marshalJSON sample_time_value = Some "2018-01-25T12:13:42Z" /\
  v_string sample_time_value = Some "2018-01-25 12:13:42 +0000 UTC" /\
  formatData sample_time_value = sample_time_value /\
  v_marshalJSON sample_error_value = None /\
  v_error sample_error_value = Some "this is a test error" /\
  formatData sample_error_value = goString "this is a test error".
Proof.
  destruct (C2_formatData_priority sample_time_value) as (_ & H2 & _).
  destruct (C2_formatData_priority sample_error_value) as (_ & _ & H3 & _).
  split; [reflexivity |]. split; [reflexivity |].
  split; [exact (H2 _ _ eq_refl eq_refl) |].
  split; [reflexivity |]. split; [reflexivity |].
  exact (proj1 (H3 _ eq_refl eq_refl)).
Defined.

(* ------------------------------------------------------------------ *)
(** ** C3: the fruit scenario *)

Definition fruit_claimed_props : gmap string string :=
  <["message" := "entry_message"]> (<["name" := "apple"]> (<["price" := "105"]>
  (<["color" := "red"]> ∅))).

(** C3, as stated: the output is exactly the four keys.  It also carries
    "source_level" and "source_timestamp". *)
Lemma C3_counterexample :
  built_props (buildTrace testHook (fruit_entry InfoLevel (mkTime "T")))
  <> fruit_claimed_props.
Proof.
  intros H. apply (f_equal (fun m : gmap string string => m !! "source_level")) in H.
  vm_compute in H. discriminate.
Qed.

(** C3 (amended): for every level and timestamp, the fruit entry with no
    ignore or filter rules builds a trace whose properties are exactly
    message, name, price "105", color, plus "source_level" (the level's
    name) and "source_timestamp" (the time's text). *)
Theorem C3_fruit_scenario (l : Level) (t : Time) :
  buildTrace testHook (fruit_entry l t) =
  BTOk (add_message (fruit_entry l t))
    (mkTraceTelemetry "entry_message" (levelMap_index l)
      (<["source_timestamp" := Time_String t]>
       (<["source_level" := Level_String l]> fruit_claimed_props))).
Proof. vm_compute. reflexivity. Qed.

(* ------------------------------------------------------------------ *)
(** ** C4: construction *)

(** C4, as stated: construction succeeds only when both a non-empty
    application name and a non-empty key are given.  No constructor takes a
    name: [New "NotEmpty"] succeeds with no name at all, i.e. for the empty
    name as well. *)
Lemma C4_counterexample :
  ~ (forall (name iKey : string), is_ok (New iKey) = true -> name <> "" /\ iKey <> "").
Proof.
  intros H. destruct (H "" "NotEmpty" eq_refl) as [Hn _]. by apply Hn.
Qed.

(** C4 (amended): both constructors validate only the instrumentation key:
    they fail with the configuration error exactly when it is empty. *)
Theorem C4_construction_validates_key :
  (forall iKey, is_ok (New iKey) = true <-> iKey <> "") /\
  (forall iKey, iKey = "" ->
     New iKey = Err "InstrumentationKey is required and missing from configuration") /\
  (forall conf, is_ok (NewWithAppInsightsConfig conf) = true <->
     InstrumentationKey conf <> "") /\
  (forall conf, InstrumentationKey conf = "" ->
     NewWithAppInsightsConfig conf =
     Err "InstrumentationKey is required and missing from configuration").
Proof.
  unfold New, NewWithAppInsightsConfig.
  split; [| split; [| split]].
  - intros iKey. destruct (String.eqb_spec iKey ""); cbn; split; congruence.
  - intros iKey ->. reflexivity.
  - intros conf.
    destruct (String.eqb_spec (InstrumentationKey conf) ""); cbn; split; congruence.
  - intros conf Hk. rewrite Hk. reflexivity.
Qed.

Lemma C4_construction_validates_key_witness :
  New "" = Err "InstrumentationKey is required and missing from configuration" /\
  is_ok (New "NotEmpty") = true.
Proof.
  destruct C4_construction_validates_key as (H1 & H2 & _).
  split; [exact (H2 "" eq_refl) |].
  apply (proj2 (H1 "NotEmpty")). discriminate.
Defined.

(* ------------------------------------------------------------------ *)
(** ** C5: asynchronous Fire *)

(** An async hook with [AddFilter("secret", nil)]: calling the filter
    panics inside the goroutine. *)
Definition nil_filter_hook : AppInsightsHook :=
  SetAsync (AddFilter testHook "secret" nilFilter) true.

Definition secret_entry : Entry :=
  mkEntry ErrorLevel "login" (mkTime "T") {[ "secret" := goString "hunter2" ]}.

(** C5: an async [Fire] whose goroutine panics returns the recovered panic
    as an error when the goroutine's deferred [recover] assigns [err] before
    the caller tests it; it returns nil only in the other order. *)
Theorem C5_async_fire_can_return_error :
  async nil_filter_hook = true /\
  fire nil_filter_hook secret_entry = Panicked nil_deref_panic /\
  Fire nil_filter_hook secret_entry GoroutineFirst =
    Returned (Some ("An error occurred: " ++ nil_deref_panic)) /\
  Fire nil_filter_hook secret_entry CheckFirst = Returned None.
Proof. vm_compute. repeat split. Qed.

(* ------------------------------------------------------------------ *)
(** ** C6: filters *)

Definition const_filter (w : Value) : Filter := fun _ => Ret w.

Definition level_filter_hook : AppInsightsHook :=
  AddFilter testHook "source_level" (const_filter (goString "FILTERED")).

Definition level_field_entry : Entry :=
  mkEntry ErrorLevel "m" (mkTime "T") {[ "source_level" := goString "x" ]}.

(** C6, as stated: a filtered field's output is the filter's result.  A
    filter on the field "source_level" is overwritten by the level name. *)
Lemma C6_counterexample :
  (exists e t, buildTrace level_filter_hook level_field_entry = BTOk e t) /\
  ("source_level" ∉ ignoreFields level_filter_hook) /\
  filters level_filter_hook !! "source_level" =
    Some (const_filter (goString "FILTERED")) /\
  built_props (buildTrace level_filter_hook level_field_entry) !! "source_level"
    = Some "error" /\
  sprintfV (goString "FILTERED") <> "error".
Proof.
  split; [eexists _, _; vm_compute; reflexivity |].
  split; [change (ignoreFields level_filter_hook) with (∅ : gset string);
          apply not_elem_of_empty |].
  split; [reflexivity |].
  split; [vm_compute; reflexivity | discriminate].
Qed.

(** C6 (amended): for a field of the entry (after the "message" injection)
    that is not ignored, has a registered filter returning [w], and is not
    named "source_level" or "source_timestamp", a successful build stores
    exactly [fmt.Sprintf("%v", w)] under the field's name, with no
    [formatData] in between. *)
Theorem C6_filter_unconditional (hook : AppInsightsHook) (entry e : Entry)
    (t : TraceTelemetry) (k : string) (fn : Filter) (v w : Value) :
  buildTrace hook entry = BTOk e t ->
  k ∉ ignoreFields hook ->
  filters hook !! k = Some fn ->
  e_Data e !! k = Some v ->
  fn v = Ret w ->
  k <> "source_level" -> k <> "source_timestamp" ->
  tr_Properties t !! k = Some (sprintfV w).
Proof.
  intros Hb Hni Hf Hv Hw H1 H2.
  rewrite (buildTrace_lookup hook entry e t k Hb H1 H2).
  unfold loop_lookup, field_output. rewrite Hv.
  destruct (decide _); [done |]. by rewrite Hf, Hw.
Qed.

Definition nil_result_hook : AppInsightsHook :=
  AddFilter testHook "secret" (const_filter goNil).

Lemma C6_filter_unconditional_witness :
  match buildTrace nil_result_hook secret_entry with
  | BTOk _ t => tr_Properties t !! "secret" = Some "<nil>"
  | _ => False
  end.
Proof.
  destruct (buildTrace nil_result_hook secret_entry) as [e t | e s | e p] eqn:Hb;
    [| vm_compute in Hb; discriminate ..].
  destruct (buildTrace_shape _ _ _ _ Hb) as (He & _).
  refine (C6_filter_unconditional nil_result_hook secret_entry e t "secret"
            (const_filter goNil) (goString "hunter2") goNil Hb _ eq_refl _ eq_refl _ _).
  - change (ignoreFields nil_result_hook) with (∅ : gset string).
    apply not_elem_of_empty.
  - rewrite He. vm_compute. reflexivity.
  - discriminate.
  - discriminate.
Defined.

(* ------------------------------------------------------------------ *)
(** ** C7: ignored fields *)

Lemma fields_loop_ext (h1 h2 : AppInsightsHook) (data : gmap string Value)
    (props : gmap string string) :
  (forall k v acc, field_step h1 k v acc = field_step h2 k v acc) ->
  fields_loop h1 data props = fields_loop h2 data props.
Proof.
  intros Hext. unfold fields_loop. rewrite !map_fold_foldr.
  induction (map_to_list data) as [| [k v] l IH]; cbn; [done |].
  by rewrite IH, Hext.
Qed.

Definition level_ignore_hook : AppInsightsHook := with_ignore ["source_level"] testHook.

(** C7, as stated: an ignored field of the entry is absent from the output.
    An ignored field named "source_level" is still present. *)
Lemma C7_counterexample :
  ("source_level" ∈ ignoreFields level_ignore_hook) /\
  is_Some (e_Data level_field_entry !! "source_level") /\
  built_props (buildTrace level_ignore_hook level_field_entry) !! "source_level"
    = Some "error".
Proof.
  split; [cbn; set_solver |].
  split; [eexists; reflexivity |].
  vm_compute. reflexivity.
Qed.

(** C7 (amended): a field name in the ignore set, other than
    "source_level" and "source_timestamp", is absent from the output of a
    successful build; and the filter registered for an ignored name is never
    called: registering any other function there (even one that panics)
    leaves the build unchanged. *)
Theorem C7_ignored_fields (hook : AppInsightsHook) (entry : Entry) (k : string) :
  k ∈ ignoreFields hook ->
  (forall fn, buildTrace (AddFilter hook k fn) entry = buildTrace hook entry) /\
  (k <> "source_level" -> k <> "source_timestamp" ->
   forall e t, buildTrace hook entry = BTOk e t -> tr_Properties t !! k = None).
Proof.
  intros Hk. split.
  - intros fn. unfold buildTrace. cbn [NewTraceTelemetry tr_Properties].
    rewrite (fields_loop_ext (AddFilter hook k fn) hook); [done |].
    intros i v [p | props]; [done |]. unfold field_step. cbn [ignoreFields filters AddFilter].
    destruct (decide (i ∈ ignoreFields hook)) as [| Hi]; [done |].
    rewrite lookup_insert_ne; [done |]. intros ->. contradiction.
  - intros H1 H2 e t Hb.
    rewrite (buildTrace_lookup hook entry e t k Hb H1 H2).
    unfold loop_lookup, field_output.
    destruct (e_Data e !! k); [| by rewrite lookup_empty].
    destruct (decide _); [by rewrite lookup_empty | done].
Qed.

Definition secret_ignore_hook : AppInsightsHook :=
  AddIgnore (AddFilter testHook "secret" (const_filter goNil)) "secret".

Lemma C7_ignored_fields_witness :
  ("secret" ∈ ignoreFields secret_ignore_hook) /\
  buildTrace (AddFilter secret_ignore_hook "secret" nilFilter) secret_entry =
    buildTrace secret_ignore_hook secret_entry /\
  built_props (buildTrace secret_ignore_hook secret_entry) !! "secret" = None.
Proof.
  assert (Hk : "secret" ∈ ignoreFields secret_ignore_hook) by (cbn; set_solver).
  destruct (C7_ignored_fields secret_ignore_hook secret_entry "secret" Hk) as [Hf Ha].
  split; [exact Hk |]. split; [apply Hf |].
  destruct (buildTrace secret_ignore_hook secret_entry) as [e t | e s | e p] eqn:Hb;
    [| vm_compute in Hb; discriminate ..].
  cbn [built_props]. exact (Ha ltac:(discriminate) ltac:(discriminate) e t eq_refl).
Defined.

(* ------------------------------------------------------------------ *)
(** ** C8: unmapped severities *)

(** C8: an entry whose level has no [levelMap] entry (Debug, Trace or any
    other value) still builds without an error result, and a successful
    build carries severity 0 ([Verbose], the zero value). *)
Theorem C8_unmapped_level_zero (hook : AppInsightsHook) (entry : Entry) :
  levelMap !! e_Level entry = None ->
  levelMap_index (e_Level entry) = Verbose /\
  (forall e s, buildTrace hook entry <> BTErr e s) /\
  (forall e t, buildTrace hook entry = BTOk e t -> tr_SeverityLevel t = Verbose).
Proof.
  intros Hl.
  assert (Hz : levelMap_index (e_Level entry) = Verbose)
    by (unfold levelMap_index; by rewrite Hl).
  split; [exact Hz |]. split.
  - intros e s. apply buildTrace_no_err.
  - intros e t Hb. destruct (buildTrace_shape hook entry e t Hb) as (_ & _ & -> & _).
    exact Hz.
Qed.

Lemma C8_unmapped_level_zero_witness :
  levelMap !! DebugLevel = None /\
  levelMap_index (e_Level (fruit_entry DebugLevel (mkTime "T"))) = Verbose.
Proof.
  assert (Hl : levelMap !! e_Level (fruit_entry DebugLevel (mkTime "T")) = None)
    by (vm_compute; reflexivity).
  split; [exact Hl |].
  exact (proj1 (C8_unmapped_level_zero testHook (fruit_entry DebugLevel (mkTime "T")) Hl)).
Defined.

(* ------------------------------------------------------------------ *)
(** ** C9: optional overrides *)

(** C9: [NewWithAppInsightsConfig] copies the batch size, the batch interval
    and the endpoint into the fresh SDK configuration only when they are
    non-zero / non-empty; otherwise the SDK default stays. *)
Theorem C9_overrides_only_when_set (conf : TelemetryConfiguration)
    (hook : AppInsightsHook) :
  NewWithAppInsightsConfig conf = Ok hook ->
  let c := client_config (client hook) in
  let d := NewTelemetryConfiguration (InstrumentationKey conf) in
  InstrumentationKey c = InstrumentationKey conf /\
  MaxBatchSize c = (if Z.eqb (MaxBatchSize conf) 0 then MaxBatchSize d
                    else MaxBatchSize conf) /\
  MaxBatchInterval c = (if Z.eqb (MaxBatchInterval conf) 0 then MaxBatchInterval d
                        else MaxBatchInterval conf) /\
  EndpointUrl c = (if String.eqb (EndpointUrl conf) "" then EndpointUrl d
                   else EndpointUrl conf).
Proof.
  unfold NewWithAppInsightsConfig.
  destruct (String.eqb (InstrumentationKey conf) ""); [discriminate |].
  intros [= <-]. cbn.
  destruct (Z.eqb (MaxBatchSize conf) 0), (Z.eqb (MaxBatchInterval conf) 0),
    (String.eqb (EndpointUrl conf) ""); cbn; repeat split.
Qed.

Definition sample_conf : TelemetryConfiguration :=
  mkTelemetryConfiguration "NotEmpty" "" 1 0.

Lemma C9_overrides_only_when_set_witness :
  exists hook, NewWithAppInsightsConfig sample_conf = Ok hook /\
    MaxBatchSize (client_config (client hook)) = 1%Z /\
    MaxBatchInterval (client_config (client hook)) = (10 * Second)%Z /\
    EndpointUrl (client_config (client hook)) =
      "https://dc.services.visualstudio.com/v2/track".
Proof.
  destruct (NewWithAppInsightsConfig sample_conf) as [hook | m] eqn:Hn;
    [| vm_compute in Hn; discriminate].
  exists hook. split; [reflexivity |].
  destruct (C9_overrides_only_when_set sample_conf hook Hn) as (_ & H1 & H2 & H3).
  split; [exact H1 |]. split; [exact H2 | exact H3].
Defined.

(* ------------------------------------------------------------------ *)
(** ** C10: the trailing keys *)

(** C10: a successful build always has "source_level" = [Level.String()]
    and "source_timestamp" = [Time.String()], whatever the ignore set, the
    filters and the entry's own fields of those names. *)
Theorem C10_source_keys (hook : AppInsightsHook) (entry e : Entry) (t : TraceTelemetry) :
  buildTrace hook entry = BTOk e t ->
  tr_Properties t !! "source_level" = Some (Level_String (e_Level entry)) /\
  tr_Properties t !! "source_timestamp" = Some (Time_String (e_Time entry)).
Proof.
  intros Hb. destruct (buildTrace_shape hook entry e t Hb) as (_ & _ & _ & props & _ & ->).
  split.
  - rewrite lookup_insert_ne by done. by rewrite lookup_insert_eq.
  - by rewrite lookup_insert_eq.
Qed.

Lemma C10_source_keys_witness :
  match buildTrace level_ignore_hook level_field_entry with
  | BTOk _ t => tr_Properties t !! "source_level" = Some "error"
  | _ => False
  end.
Proof.
  destruct (buildTrace level_ignore_hook level_field_entry) as [e t | e s | e p] eqn:Hb;
    [| vm_compute in Hb; discriminate ..].
  exact (proj1 (C10_source_keys _ _ _ _ Hb)).
Defined.

(* ------------------------------------------------------------------ *)
(** ** Further properties of the hook *)



Lemma fields_loop_ext_dom (h1 h2 : AppInsightsHook) (data : gmap string Value)
    (props : gmap string string) :
  (forall k v acc, data !! k = Some v -> field_step h1 k v acc = field_step h2 k v acc) ->
  fields_loop h1 data props = fields_loop h2 data props.
Proof.
  intros Hext. unfold fields_loop. rewrite !map_fold_foldr.
  assert (Hl : forall k v acc, (k, v) ∈ map_to_list data ->
                 field_step h1 k v acc = field_step h2 k v acc).
  { intros k v acc Hin. apply Hext. by apply elem_of_map_to_list. }
  induction (map_to_list data) as [| [k v] l IH]; cbn; [done |].
  rewrite IH.
  - apply Hl. apply elem_of_cons. by left.
  - intros k' v' acc Hin. apply Hl. apply elem_of_cons. by right.
Qed.







(** X3: the keys of a successful build are the two trailing keys and the
    entry's fields (after the "message" injection) that are not ignored. *)
Theorem X3_output_keys (hook : AppInsightsHook) (entry e : Entry)
    (t : TraceTelemetry) (k : string) :
  buildTrace hook entry = BTOk e t ->
  is_Some (tr_Properties t !! k) <->
  k = "source_level" \/ k = "source_timestamp" \/
  ((k ∉ ignoreFields hook) /\ is_Some (e_Data (add_message entry) !! k)).
Proof.
  intros Hb.
  destruct (buildTrace_shape hook entry e t Hb) as (He & _ & _ & props & Hl & Ht).
  destruct (decide (k = "source_level")) as [-> | H1].
  { rewrite Ht, lookup_insert_ne, lookup_insert_eq by done. split; [by left | done]. }
  destruct (decide (k = "source_timestamp")) as [-> | H2].
  { rewrite Ht, lookup_insert_eq. split; [by right; left | done]. }
  rewrite (buildTrace_lookup hook entry e t k Hb H1 H2), He.
  destruct (fields_loop_spec _ _ _ _ Hl) as [_ Hnp].
  unfold loop_lookup.
  destruct (e_Data (add_message entry) !! k) as [v |] eqn:Hv.
  - specialize (Hnp k v). unfold field_output in *.
    destruct (decide (k ∈ ignoreFields hook)) as [Hi | Hi].
    + rewrite lookup_empty. split; [intros [? ?]; discriminate |].
      intros [? | [? | [? _]]]; [congruence | congruence | contradiction].
    + split; [intros _; right; right; split; [done | by eexists] |].
      intros _. destruct (filters hook !! k) as [fn |]; [| by eexists].
      destruct (fn v) as [w | p]; [by eexists |].
      exfalso. by apply (Hnp p Hv).
  - rewrite lookup_empty. split; [intros [? ?]; discriminate |].
    intros [? | [? | [_ [? ?]]]]; [congruence | congruence | discriminate].
Qed.

Lemma X3_output_keys_witness :
  match buildTrace level_ignore_hook (fruit_entry InfoLevel (mkTime "T")) with
  | BTOk _ t => is_Some (tr_Properties t !! "price")
  | _ => False
  end.
Proof.
  destruct (buildTrace level_ignore_hook (fruit_entry InfoLevel (mkTime "T")))
    as [e t | e s | e p] eqn:Hb; [| vm_compute in Hb; discriminate ..].
  apply (proj2 (X3_output_keys _ _ _ _ "price" Hb)).
  right; right. split.
  - change (ignoreFields level_ignore_hook) with ({["source_level"]} ∪ (∅ : gset string)).
    rewrite elem_of_union, elem_of_singleton. intros [H | H]; [discriminate H |].
    by apply not_elem_of_empty in H.
  - vm_compute. by eexists.
Defined.


(** X5: in synchronous mode [Fire] never returns a non-nil error: it
    returns nil, or it panics with the filter's panic. *)
Theorem X5_sync_fire_no_error (hook : AppInsightsHook) (entry : Entry) (s : Sched) :
  async hook = false ->
  Fire hook entry s = Returned None \/
  exists e p, buildTrace hook entry = BTPanic e p /\ Fire hook entry s = Panicked p.
Proof.
  intros Ha. unfold Fire. rewrite Ha. cbn. unfold fire.
  destruct (buildTrace hook entry) as [e t | e m | e p] eqn:Hb.
  - by left.
  - exfalso. by apply (buildTrace_no_err hook entry e m).
  - right. by exists e, p.
Qed.

Lemma X5_sync_fire_no_error_witness :
  async (AddFilter testHook "secret" nilFilter) = false /\
  Fire (AddFilter testHook "secret" nilFilter) secret_entry CheckFirst
    = Panicked nil_deref_panic.
Proof.
  split; [reflexivity |].
  destruct (X5_sync_fire_no_error (AddFilter testHook "secret" nilFilter)
              secret_entry CheckFirst eq_refl) as [H | (e & p & Hb & H)].
  - exfalso. vm_compute in H. discriminate H.
  - rewrite H. vm_compute in Hb. injection Hb as _ <-. reflexivity.
Defined.

(** X6: in asynchronous mode [Fire] never panics and returns nil, except
    when the goroutine runs first and the build panics with [p]: then it
    returns "An error occurred: " followed by [p].  Without a panicking
    filter it returns nil under both schedules. *)
Theorem X6_async_fire_outcomes (hook : AppInsightsHook) (entry : Entry) (s : Sched) :
  async hook = true ->
  Fire hook entry s = Returned None \/
  (s = GoroutineFirst /\
   exists e p, buildTrace hook entry = BTPanic e p /\
     Fire hook entry s = Returned (Some ("An error occurred: " ++ p))).
Proof.
  intros Ha. unfold Fire. rewrite Ha. cbn.
  destruct s; [by left |].
  unfold fire.
  destruct (buildTrace hook entry) as [e t | e m | e p] eqn:Hb; [by left | by left |].
  right. split; [done |]. by exists e, p.
Qed.

Lemma X6_async_fire_outcomes_witness :
  async nil_filter_hook = true /\
  Fire nil_filter_hook secret_entry CheckFirst = Returned None.
Proof.
  split; [reflexivity |].
  destruct (X6_async_fire_outcomes nil_filter_hook secret_entry CheckFirst eq_refl)
    as [H | [Hs _]]; [exact H | discriminate].
Defined.

(** X7: a filter registered for a name the entry does not carry (after the
    "message" injection) is never called: registering it changes nothing. *)
Theorem X7_unused_filter_not_called (hook : AppInsightsHook) (entry : Entry)
    (k : string) (fn : Filter) :
  e_Data (add_message entry) !! k = None ->
  buildTrace (AddFilter hook k fn) entry = buildTrace hook entry.
Proof.
  intros Hk. unfold buildTrace. cbn [NewTraceTelemetry tr_Properties].
  rewrite (fields_loop_ext_dom (AddFilter hook k fn) hook); [done |].
  intros i v [p | props] Hi; [done |].
  unfold field_step. cbn [ignoreFields filters AddFilter].
  destruct (decide (i ∈ ignoreFields hook)); [done |].
  rewrite lookup_insert_ne; [done |]. intros ->. congruence.
Qed.

Lemma X7_unused_filter_not_called_witness :
  buildTrace (AddFilter testHook "absent" nilFilter) (fruit_entry InfoLevel (mkTime "T"))
  = buildTrace testHook (fruit_entry InfoLevel (mkTime "T")).
Proof.
  apply X7_unused_filter_not_called. vm_compute. reflexivity.
Defined.





(** X10: the severity table maps exactly the default levels of the hook. *)
Theorem X10_levelMap_domain (l : Level) :
  is_Some (levelMap !! l) <-> l ∈ defaultLevels.
Proof.
  unfold levelMap, defaultLevels.
  rewrite !elem_of_cons, elem_of_nil.
  rewrite !lookup_insert.
  repeat case_decide; subst; try (split; [intros _ | intros _; by eexists]; tauto).
  rewrite lookup_empty. split; [intros [? ?]; discriminate |].
  unfold PanicLevel, FatalLevel, ErrorLevel, WarnLevel, InfoLevel in *.
  intros [? | [? | [? | [? | [? | []]]]]]; congruence.
Qed.

(** X11: among the mapped levels, a more severe logrus level never gets a
    lower Application Insights severity. *)
Theorem X11_severity_monotone (l1 l2 : Level) :
  (l1 <= l2)%N -> l2 ∈ defaultLevels ->
  (levelMap_index l2 <= levelMap_index l1)%Z.
Proof.
  intros Hle Hin.
  unfold defaultLevels in Hin. rewrite !elem_of_cons, elem_of_nil in Hin.
  unfold PanicLevel, FatalLevel, ErrorLevel, WarnLevel, InfoLevel in Hin.
  assert (H1 : l1 = 0%N \/ l1 = 1%N \/ l1 = 2%N \/ l1 = 3%N \/ l1 = 4%N) by lia.
  destruct Hin as [-> | [-> | [-> | [-> | [-> | []]]]]];
    destruct H1 as [-> | [-> | [-> | [-> | ->]]]];
    try lia; vm_compute; congruence.
Qed.

Lemma X11_severity_monotone_witness :
  (levelMap_index WarnLevel <= levelMap_index ErrorLevel)%Z.
Proof.
  apply X11_severity_monotone; [vm_compute; congruence |].
  unfold defaultLevels. rewrite !elem_of_cons. right; right; right. by left.
Defined.

(** X12: [New(iKey)] is [NewWithAppInsightsConfig] with batch size 8192,
    batch interval 2s and no endpoint override (same result, errors
    included); either constructor returns a synchronous hook with the
    default levels and no ignore rules or filters. *)
Theorem X12_New_is_config_constructor (iKey : string) :
  New iKey = NewWithAppInsightsConfig (mkTelemetryConfiguration iKey "" 8192 (2 * Second)) /\
  (forall conf hook, NewWithAppInsightsConfig conf = Ok hook ->
     async hook = false /\ Levels hook = defaultLevels /\
     ignoreFields hook = ∅ /\ filters hook = ∅).
Proof.
  split.
  - unfold New, NewWithAppInsightsConfig. cbn [InstrumentationKey MaxBatchSize
      MaxBatchInterval EndpointUrl].
    destruct (String.eqb iKey ""); reflexivity.
  - intros conf hook. unfold NewWithAppInsightsConfig.
    destruct (String.eqb (InstrumentationKey conf) ""); [discriminate |].
    intros [= <-]. done.
Qed.

Lemma X12_New_is_config_constructor_witness :
  exists hook, New "NotEmpty" = Ok hook /\ Levels hook = defaultLevels.
Proof.
  destruct (New "NotEmpty") as [hook | m] eqn:Hn; [| vm_compute in Hn; discriminate].
  exists hook. split; [reflexivity |].
  destruct (X12_New_is_config_constructor "NotEmpty") as [Heq Hst].
  rewrite Heq in Hn. exact (proj1 (proj2 (Hst _ _ Hn))).
Defined.

(** X13: the configuration a hook was built with, fed back to
    [NewWithAppInsightsConfig], rebuilds the same hook: the overrides are
    stable. *)
Theorem X13_config_roundtrip (conf : TelemetryConfiguration) (hook : AppInsightsHook) :
  NewWithAppInsightsConfig conf = Ok hook ->
  NewWithAppInsightsConfig (client_config (client hook)) = Ok hook.
Proof.
  unfold NewWithAppInsightsConfig.
  destruct (String.eqb (InstrumentationKey conf) "") eqn:Hk; [discriminate |].
  intros [= <-]. cbn.
  destruct (Z.eqb (MaxBatchSize conf) 0) eqn:Hs,
           (Z.eqb (MaxBatchInterval conf) 0) eqn:Hi,
           (String.eqb (EndpointUrl conf) "") eqn:He;
    cbn; rewrite ?Hk, ?Hs, ?Hi, ?He; reflexivity.
Qed.

Lemma X13_config_roundtrip_witness :
  exists hook, NewWithAppInsightsConfig sample_conf = Ok hook /\
    NewWithAppInsightsConfig (client_config (client hook)) = Ok hook.
Proof.
  destruct (NewWithAppInsightsConfig sample_conf) as [hook | m] eqn:Hn;
    [| vm_compute in Hn; discriminate].
  exists hook. split; [reflexivity |]. exact (X13_config_roundtrip _ _ Hn).
Defined.

(** X14: [SetLevels] replaces what [Levels] returns and nothing else: the
    hook never consults its level list when it builds or fires an entry
    (level filtering is left to logrus). *)
Theorem X14_levels_not_consulted (hook : AppInsightsHook) (ls : list Level)
    (entry : Entry) (s : Sched) :
  Levels (SetLevels hook ls) = ls /\
  buildTrace (SetLevels hook ls) entry = buildTrace hook entry /\
  Fire (SetLevels hook ls) entry s = Fire hook entry s.
Proof.
  assert (Hb : buildTrace (SetLevels hook ls) entry = buildTrace hook entry).
  { unfold buildTrace. cbn [NewTraceTelemetry tr_Properties].
    rewrite (fields_loop_ext (SetLevels hook ls) hook); [done |].
    intros k v [p | props]; reflexivity. }
  split; [reflexivity |]. split; [exact Hb |].
  unfold Fire, fire. rewrite Hb. reflexivity.
Qed.
